(** * tyr/sfg.py: continuum scaling relations of star-forming galaxies

  A shallow embedding of the five functions of [tyr/sfg.py] and the
  properties of them stated by the specification.

  Numbers.  The functions are applied here to Python scalars of type
  [float].  A float is idealised as a real number: a decimal literal
  denotes its decimal value and [+], [*], [/], [**] and [np.exp] are the
  exact operations.  Rounding, overflow, infinities and NaN are not part
  of the model.  What Python does besides computing is kept: a division
  by zero and a negative power of zero raise [ZeroDivisionError], an
  unbound global raises [NameError], arithmetic on [None] raises
  [TypeError], and a negative base raised to a non-integral exponent
  leaves the real numbers. *)

From Stdlib Require Import Reals Lra String List.
Import ListNotations.

Open Scope R_scope.

(** ** Python values, exceptions and outcomes *)

Module Py.

(** The exceptions that the module's operations can raise, together with
    the two conditions named by the specification's taxonomy
    ([NotImplementedError], a builtin, and [DomainError]). *)
Inductive exn : Type :=
| NameError (name : string)
| AttributeError
| TypeError
| ZeroDivisionError
| NotImplementedError
| DomainError.

(** The objects a name of the module can be bound to. *)
Inductive value : Type :=
| VFloat (r : R)
| VNone
| VModule (name : string)
| VFunction (name : string).

(** The outcome of evaluating an expression or a call: a value, a raised
    exception, or [Complex] when a power produced a complex number (the
    model does not follow the computation further). *)
Inductive outcome (A : Type) : Type :=
| Ok (a : A)
| Raise (e : exn)
| Complex.

Arguments Ok {A} a.
Arguments Raise {A} e.
Arguments Complex {A}.

Definition bind {A B : Type} (m : outcome A) (k : A -> outcome B) : outcome B :=
  match m with
  | Ok a => k a
  | Raise e => Raise e
  | Complex => Complex
  end.

(** [x / y] on floats. *)
Definition py_div (x y : R) : outcome R :=
  if Req_dec_T y 0 then Raise ZeroDivisionError else Ok (x / y).

(** [x ** y] on floats ([float_pow] of CPython, without its overflow and
    NaN cases): a positive base gives [exp (y * ln x)]; [0.0 ** y] is
    [0.0] for positive [y], [1.0] for [y == 0] and an error for negative
    [y]; a negative base gives a float only for an integral exponent. *)
Definition py_pow (x y : R) : outcome R :=
  if Rlt_dec 0 x then Ok (Rpower x y)
  else if Req_dec_T x 0 then
    if Rlt_dec y 0 then Raise ZeroDivisionError
    else if Req_dec_T y 0 then Ok 1 else Ok 0
  else if Req_dec_T y (IZR (Int_part y)) then Ok (powerRZ x (Int_part y))
  else Complex.

(** A float operand of an arithmetic operator; [None], a module or a
    function there is a [TypeError]. *)
Definition as_float (v : value) : outcome R :=
  match v with
  | VFloat r => Ok r
  | _ => Raise TypeError
  end.

(** Lookup of a global name in a module namespace. *)
Fixpoint lookup (g : list (string * value)) (name : string) : option value :=
  match g with
  | [] => None
  | (n, v) :: g' => if String.eqb n name then Some v else lookup g' name
  end.

Definition load_global (g : list (string * value)) (name : string) : outcome value :=
  match lookup g name with
  | Some v => Ok v
  | None => Raise (NameError name)
  end.


End Py.

Import Py.

Declare Scope outcome_scope.
Notation "x <- m ;; k" := (bind m (fun x => k))
(at level 61, m at next level, right associativity) : outcome_scope.
Open Scope outcome_scope.
Open Scope string_scope.

(** ** The module [tyr.sfg] *)

Module Sfg.

(** The names bound at module level once [sfg.py] has been imported:
    [import numpy as np] and the five [def]s.  Neither [h] nor [kB] is
    bound anywhere in the file. *)
Definition sfg_globals : list (string * value) :=
  [ ("np", VModule "numpy");
    ("Lff_murphy", VFunction "Lff_murphy");
    ("Lsynch_murphy", VFunction "Lsynch_murphy");
    ("Lsynch_mancuso", VFunction "Lsynch_mancuso");
    ("Lsynch", VFunction "Lsynch");
    ("R_sfg_halflight", VFunction "R_sfg_halflight") ].

(** The callee of [np.exp(...)]: the global [np] is loaded and its
    attribute [exp] fetched before the argument is evaluated. *)
Definition np_exp : outcome (R -> R) :=
  m <- load_global sfg_globals "np" ;;
  match m with
  | VModule "numpy" => Ok exp
  | _ => Raise AttributeError
  end.


(** [def Lff_murphy(sfr, nu, T=1e4)] *)
Definition Lff_murphy (sfr nu T : R) : outcome R :=
  let gaunt := VNone in
  f <- np_exp ;;
  h <- load_global sfg_globals "h" ;;
  h <- as_float h ;;
  kB <- load_global sfg_globals "kB" ;;
  kB <- as_float kB ;;
  q <- py_div (- h * nu) (kB * T) ;;
  let freq_fac := f q in
  t <- py_div T 1e4 ;;
  p <- py_pow t 0.3 ;;
  g <- as_float gaunt ;;
  Ok (3.75e19 * sfr * p * g * freq_fac).

(** The body of [Lff_murphy] run in a namespace [g] other than the one the
    file builds, such as the module's own after a caller has assigned
    [sfg.h] and [sfg.kB]. *)
Definition np_exp_in (g : list (string * value)) : outcome (R -> R) :=
  m <- load_global g "np" ;;
  match m with
  | VModule "numpy" => Ok exp
  | _ => Raise AttributeError
  end.

Definition Lff_murphy_in (g : list (string * value)) (sfr nu T : R) : outcome R :=
  let gaunt := VNone in
  f <- np_exp_in g ;;
  h <- load_global g "h" ;;
  h <- as_float h ;;
  kB <- load_global g "kB" ;;
  kB <- as_float kB ;;
  q <- py_div (- h * nu) (kB * T) ;;
  let freq_fac := f q in
  t <- py_div T 1e4 ;;
  p <- py_pow t 0.3 ;;
  g <- as_float gaunt ;;
  Ok (3.75e19 * sfr * p * g * freq_fac).


(** [def Lsynch_murphy(sfr, nu)] *)
Definition Lsynch_murphy (sfr nu : R) : outcome R :=
  a <- py_pow nu (-0.85) ;;
  q <- py_div nu 20 ;;
  b <- py_pow q 0.5 ;;
  freq_fac <- py_div a (1 + b) ;;
  Ok (1.9e21 * sfr * freq_fac).

(** [def Lsynch_mancuso(sfr, nu, beta=3.)] *)
Definition Lsynch_mancuso (sfr nu beta : R) : outcome R :=
  Ls <- Lsynch_murphy sfr nu ;;
  L1 <- Lsynch_murphy 1 nu ;;
  let Lstar := 0.086 * L1 in
  x <- py_div Lstar Ls ;;
  xb <- py_pow x beta ;;
  py_div Lstar (xb + x).

(** The local [z_fac] of [Lsynch]. *)
Definition z_fac (z : R) : outcome R :=
  f <- np_exp ;;
  a <- py_pow (1 + z) (-0.12) ;;
  Ok (f (2.35 * (1 - a))).

(** [def Lsynch(sfr, nu, z, beta=3.)] *)
Definition Lsynch (sfr nu z beta : R) : outcome R :=
  zf <- z_fac z ;;
  m <- Lsynch_mancuso sfr nu beta ;;
  Ok (zf * m).


End Sfg.

Import Sfg.

(** ** The formulas of the specification, as real functions *)

Module Formula.

(** Section 4.1: [1.9e21 * sfr * nu**(-0.85) / (1 + (nu/20)**0.5)]. *)
Definition Base (sfr nu : R) : R :=
  1.9e21 * sfr * Rpower nu (-0.85) / (1 + Rpower (nu / 20) 0.5).

(** Section 4.2: the reference luminosity, the ratio and the output. *)
Definition Lstar (nu : R) : R := 0.086 * Base 1 nu.




End Formula.

Import Formula.

(** ** The primitive operations *)

Section Primitives.



Lemma py_pow_pos (x y : R) : 0 < x -> py_pow x y = Ok (Rpower x y).
Proof.
  intros Hx. unfold py_pow. destruct (Rlt_dec 0 x); [reflexivity | contradiction].
Qed.


Lemma Rpower_one_base (y : R) : Rpower 1 y = 1.
Proof. unfold Rpower. rewrite ln_1, Rmult_0_r. apply exp_0. Qed.

End Primitives.

(** ** The base relation at a positive frequency *)

Section PositiveFrequency.

Variable nu : R.
Hypothesis Hnu : 0 < nu.












End PositiveFrequency.

(** ** Which exceptions the functions can raise *)

Section Exceptions.

Variable P : exn -> Prop.


Hypothesis P_zero_division : P ZeroDivisionError.









End Exceptions.



(** ** Free-free luminosity *)



(** ** Input validation *)




(** ** Base synchrotron luminosity *)



(** ** Saturated synchrotron luminosity *)















(** ** Redshift-dependent synchrotron luminosity *)

Lemma z_fac_zero : z_fac 0 = Ok 1.
Proof.
  unfold z_fac.
  cbn [np_exp load_global lookup sfg_globals String.eqb Ascii.eqb Bool.eqb bind].
  rewrite py_pow_pos by lra. cbn [bind].
  replace (1 + 0) with 1 by lra. rewrite Rpower_one_base.
  replace (2.35 * (1 - 1)) with 0 by lra. now rewrite exp_0.
Qed.

(** C5: the redshift factor is exactly 1 at [z = 0], and [Lsynch] at
    [z = 0] has the outcome of [Lsynch_mancuso] at the same [sfr], [nu]
    and [beta] (for [nu > 0] and for every other argument too: an
    exception of [Lsynch_mancuso] is passed on unchanged). *)
Theorem Lsynch_at_redshift_zero (sfr nu beta : R) :
  z_fac 0 = Ok 1
  /\ Lsynch sfr nu 0 beta = Lsynch_mancuso sfr nu beta.
Proof.
  split; [exact z_fac_zero |].
  unfold Lsynch. rewrite z_fac_zero. cbn [bind].
  destruct (Lsynch_mancuso sfr nu beta) as [m | e |]; cbn [bind];
    [now rewrite Rmult_1_l | reflexivity | reflexivity].
Qed.

(** ** Half-light radius *)




(** ** Further properties of the five functions *)

(** *** [Lff_murphy] with the constants supplied *)

Lemma Lff_murphy_in_sfg_globals (sfr nu T : R) :
  Lff_murphy_in sfg_globals sfr nu T = Lff_murphy sfr nu T.
Proof. reflexivity. Qed.



(** *** [Lsynch_murphy] *)










(** *** [Lsynch_mancuso] *)













(** *** [Lsynch] *)
















(** *** [R_sfg_halflight] *)











